(** * Weekly repair-claims report: validation and KPI pipeline

    Shallow embedding of [src/src/generate_report.py]: the week window
    ([last_full_week], [filter_week]), the validator ([validate]), the
    KPI aggregator ([compute_kpis]), the loader ([load_data]) and the body of
    [main] up to the Excel writer.

    Modelling choices:
    - a calendar date is Python's [date.toordinal()] (a [Z]); [timedelta]
      arithmetic on dates is integer arithmetic on ordinals, and
      [date.weekday()] is [(toordinal() + 6) mod 7] (0001-01-01 is a Monday);
    - a pandas frame is its list of column names (the schema) together with its
      rows, each labelled by its index value.  After [load_data] the ten
      required columns are typed fields of [Row]: text columns are strings
      ([fillna("")] makes them never null), date columns are [option date]
      ([NaT] is [None]).  Any other column lives in [extra].  A typed field
      whose column is absent from the schema is never read by the code below
      (reading it would be a [KeyError], modelled as [None] in
      [compute_kpis]);
    - strings are Stdlib [string]; [str.lower] is lowercasing of the ASCII
      letters. *)

From Stdlib Require Import String Ascii List ZArith QArith Bool Lia.
From Stdlib Require Import Numbers.DecimalString Structures.OrderedTypeEx Sorting.Sorted.
Import ListNotations.

Local Open Scope Z_scope.

(** ** Constants *)

Definition ALLOWED_STATUSES : list string :=
  ["New"; "In Progress"; "Completed"; "On Hold"]%string.

Definition REQUIRED_COLUMNS : list string :=
  ["claim_id"; "branch"; "line_of_service"; "is_assignment"; "received_date";
   "assigned_pm"; "assigned_date"; "status"; "dash_job_id"; "completed_date"]%string.

(** Python's [x in xs] on a list or set of strings. *)
Definition mem (x : string) (xs : list string) : bool :=
  existsb (String.eqb x) xs.

(** ** Dates *)

Definition date := Z.

(** [date.weekday()]: Monday is 0. *)
Definition weekday (d : date) : Z := (d + 6) mod 7.

(** [last_full_week], with [today] the value of
    [datetime.now(tz=tz.gettz("America/New_York")).date()].  A current date
    is far from [date.min], so the subtractions never leave the range of
    [date]. *)
Definition last_full_week (today : date) : date * date :=
  let wd := weekday today in
  let end_ := today - (wd + 1) in
  let start := end_ - 6 in
  (start, end_).

(** ** Strings *)

Definition ascii_lower (c : ascii) : ascii :=
  let n := nat_of_ascii c in
  if (Nat.leb 65 n && Nat.leb n 90)%bool then ascii_of_nat (n + 32) else c.

(** [str.lower()] *)
Fixpoint str_lower (s : string) : string :=
  match s with
  | EmptyString => EmptyString
  | String c s' => String (ascii_lower c) (str_lower s')
  end.

(** [str(n)] for a Python [int]. *)
Definition py_str_int (n : Z) : string := NilZero.string_of_int (Z.to_int n).

(** [repr] of a list of strings without quotes inside, as in an f-string. *)
Definition py_list_repr (xs : list string) : string :=
  ("[" ++ String.concat ", " (map (fun s => "'" ++ s ++ "'") xs) ++ "]")%string.

(** ** Frames *)

(** A cell of a column other than the ten required ones: a string read from
    the CSV, or a (nullable) integer column computed by [compute_kpis]. *)
Inductive Cell :=
| CStr (s : string)
| CInt (v : option Z).

Record Row := mkRow {
  claim_id : string;
  branch : string;
  line_of_service : string;
  is_assignment : string;
  received_date : option date;
  assigned_pm : string;
  assigned_date : option date;
  status : string;
  dash_job_id : string;
  completed_date : option date;
  extra : list (string * Cell)
}.

Record DataFrame := mkDF {
  columns : list string;
  rows : list (nat * Row)
}.

(** [df[c] = ...] on the column list: an existing column is overwritten in
    place, a new one is appended. *)
Definition set_column_name (c : string) (cols : list string) : list string :=
  if mem c cols then cols else cols ++ [c].

Fixpoint set_extra (c : string) (v : Cell) (e : list (string * Cell))
  : list (string * Cell) :=
  match e with
  | [] => [(c, v)]
  | (c', v') :: e' =>
      if String.eqb c c' then (c', v) :: e' else (c', v') :: set_extra c v e'
  end.

Fixpoint cell_at (c : string) (e : list (string * Cell)) : option Cell :=
  match e with
  | [] => None
  | (c', v) :: e' => if String.eqb c c' then Some v else cell_at c e'
  end.

Definition set_cell (c : string) (v : Cell) (r : Row) : Row :=
  mkRow (claim_id r) (branch r) (line_of_service r) (is_assignment r)
        (received_date r) (assigned_pm r) (assigned_date r) (status r)
        (dash_job_id r) (completed_date r) (set_extra c v (extra r)).

(** [df[c] = f(row) for each row], mutating [df]. *)
Definition add_column (c : string) (f : Row -> Cell) (df : DataFrame) : DataFrame :=
  mkDF (set_column_name c (columns df))
       (map (fun p => (fst p, set_cell c (f (snd p)) (snd p))) (rows df)).

(** ** [filter_week] *)

(** [(received_date >= start) & (received_date <= end)]; a comparison with
    [NaT] is [False]. *)
Definition in_week (start end_ : date) (d : option date) : bool :=
  match d with
  | Some x => (start <=? x) && (x <=? end_)
  | None => false
  end.

(** [df.loc[mask].copy()]; [None] is the [KeyError] of a frame without a
    [received_date] column. *)
Definition filter_week (df : DataFrame) (start end_ : date) : option DataFrame :=
  if mem "received_date" (columns df) then
    Some (mkDF (columns df)
               (filter (fun p => in_week start end_ (received_date (snd p))) (rows df)))
  else None.

(** ** [validate] *)

Inductive RowLabel :=
| RowDash                (* the ["-"] of the schema issue *)
| RowIdx (i : nat).

Record Issue := mkIssue {
  issue_row : RowLabel;
  field : string;
  issue : string
}.

(** The checks of the loop body of [validate] on row [idx]. *)
Definition row_checks (idx : nat) (row : Row) : list Issue :=
  (if (negb (String.eqb (status row) "") && negb (mem (status row) ALLOWED_STATUSES))%bool
   then [mkIssue (RowIdx idx) "status" ("Invalid status '" ++ status row ++ "'")%string]
   else [])
  ++ (if (mem (status row) ["In Progress"; "Completed"; "On Hold"]%string
          && String.eqb (dash_job_id row) "")%bool
      then [mkIssue (RowIdx idx) "dash_job_id" "Missing DASH job id for active/closed claim"]
      else [])
  ++ (if mem (str_lower (is_assignment row)) ["yes"; "y"; "true"; "1"]%string
      then (if String.eqb (assigned_pm row) ""
            then [mkIssue (RowIdx idx) "assigned_pm" "Missing assigned PM on assignment"]
            else [])
           ++ (match assigned_date row with
               | None => [mkIssue (RowIdx idx) "assigned_date" "Missing assigned_date on assignment"]
               | Some _ => []
               end)
      else []).

Definition missing_columns (df : DataFrame) : list string :=
  filter (fun c => negb (mem c (columns df))) REQUIRED_COLUMNS.

Definition validate (df : DataFrame) : list Issue :=
  match missing_columns df with
  | [] => flat_map (fun p => row_checks (fst p) (snd p)) (rows df)
  | missing_cols =>
      [mkIssue RowDash "schema" ("Missing required columns: " ++ py_list_repr missing_cols)%string]
  end.

(** ** [compute_kpis] *)

(** [(pd.to_datetime(a) - pd.to_datetime(b)).dt.days]: [NaN] when either
    date is [NaT]. *)
Definition days_between (a b : option date) : option Z :=
  match a, b with
  | Some x, Some y => Some (x - y)
  | _, _ => None
  end.

Definition assign_lag_days (r : Row) : option Z :=
  days_between (assigned_date r) (received_date r).

Definition resolution_days (r : Row) : option Z :=
  days_between (completed_date r) (received_date r).

(** A value of the KPI dict: an [int], [np.nan], or a rounded average. *)
Inductive Value :=
| VInt (z : Z)
| VNaN
| VNum (q : Q).

Definition KPIs := list (string * Value).

(** A breakdown table: rows (group key, count). *)
Definition Table := list (string * nat).

(** [(mask).sum()] *)
Definition count_true {A} (p : A -> bool) (l : list A) : Z :=
  Z.of_nat (length (filter p l)).

(** [series.dropna()] *)
Fixpoint dropna (xs : list (option Z)) : list Z :=
  match xs with
  | [] => []
  | Some x :: xs' => x :: dropna xs'
  | None :: xs' => dropna xs'
  end.

(** [series.notna().any()] *)
Definition notna_any (xs : list (option Z)) : bool :=
  existsb (fun o => match o with Some _ => true | None => false end) xs.

(** [series.mean()] of a non-empty integer series, exactly. *)
Definition mean (xs : list Z) : Q :=
  inject_Z (fold_right Z.add 0 xs) / inject_Z (Z.of_nat (length xs)).

(** [df.groupby(key, dropna=False)["claim_id"].count()]: one row per distinct
    key, keys in ascending order (groupby's default [sort=True]).  The
    [claim_id] column is a string column after [fillna("")], so [count()]
    counts every row of the group. *)
Fixpoint insert_key (k : string) (t : Table) : Table :=
  match t with
  | [] => [(k, 1%nat)]
  | (k', n) :: t' =>
      match String.compare k k' with
      | Eq => (k', S n) :: t'
      | Lt => (k, 1%nat) :: t
      | Gt => (k', n) :: insert_key k t'
      end
  end.

Definition groupby_count (keys : list string) : Table :=
  fold_left (fun t k => insert_key k t) keys [].

(** [series.str.lower().isin(["yes","y","true","1"])] on one value. *)
Definition is_assignment_isin (s : string) : bool :=
  mem (str_lower s) ["yes"; "y"; "true"; "1"]%string.

(** The columns [compute_kpis] reads; a missing one raises [KeyError]. *)
Definition kpi_columns : list string :=
  ["is_assignment"; "status"; "assigned_date"; "received_date";
   "completed_date"; "branch"; "claim_id"; "line_of_service"; "assigned_pm"]%string.

Section ComputeKpis.

(** [sort_values("count", ascending=False)]: pandas' default sort, numpy's
    non-stable quicksort, which the code uses as it is. *)
Variable sort_count_desc : Table -> Table.

(** [round(float(q), 2)]: conversion to a double and rounding to two
    decimals. *)
Variable round2 : Q -> Q.

Definition avg_days (xs : list (option Z)) : Value :=
  if notna_any xs then VNum (round2 (mean (dropna xs))) else VNaN.

(** [compute_kpis(df, sla_assign_days, sla_complete_days)]: the returned
    frame is [df] as the call leaves it (the code assigns two new columns to
    it). *)
Definition compute_kpis (df : DataFrame) (sla_assign_days sla_complete_days : Z)
  : option ((KPIs * Table * Table * Table) * DataFrame) :=
  if forallb (fun c => mem c (columns df)) kpi_columns then
    let rs := map snd (rows df) in
    let total := Z.of_nat (length rs) in
    let assignments := count_true (fun r => is_assignment_isin (is_assignment r)) rs in
    let status_counts :=
      map (fun s => (("Status: " ++ s)%string, VInt (count_true (fun r => String.eqb (status r) s) rs)))
          ["New"; "In Progress"; "Completed"; "On Hold"]%string in
    let assign_lag := map assign_lag_days rs in
    let resolution := map resolution_days rs in
    let df1 := add_column "assign_lag_days" (fun r => CInt (assign_lag_days r)) df in
    let df2 := add_column "resolution_days" (fun r => CInt (resolution_days r)) df1 in
    let assign_breaches :=
      count_true (fun o => match o with Some x => sla_assign_days <? x | None => false end)
                 assign_lag in
    let complete_breaches :=
      count_true (fun x => sla_complete_days <? x) (dropna resolution) in
    let out : KPIs :=
      [("Total Claims", VInt total);
       ("Assignments", VInt assignments);
       ("Non-Assignments", VInt (total - assignments))]%string
      ++ status_counts
      ++ [("Avg Assign Lag (days)", avg_days assign_lag);
          ("Avg Resolution (days)", avg_days resolution);
          ("SLA Breaches: Assign>" ++ py_str_int sla_assign_days ++ "d", VInt assign_breaches);
          ("SLA Breaches: Complete>" ++ py_str_int sla_complete_days ++ "d", VInt complete_breaches)]%string in
    let by_branch := sort_count_desc (groupby_count (map branch rs)) in
    let by_service := sort_count_desc (groupby_count (map line_of_service rs)) in
    let by_pm := sort_count_desc (groupby_count (map assigned_pm rs)) in
    Some ((out, by_branch, by_service, by_pm), df2)
  else None.

End ComputeKpis.

(** [out[key]] *)
Fixpoint kpi (k : string) (out : KPIs) : option Value :=
  match out with
  | [] => None
  | (k', v) :: out' => if String.eqb k k' then Some v else kpi k out'
  end.

(** numpy's quicksort on fewer than 17 elements is an insertion sort; behind
    pandas' reversal for a descending sort it keeps equal counts in their
    input order.  Used to evaluate [compute_kpis] on small concrete frames. *)
Fixpoint insert_desc (x : string * nat) (t : Table) : Table :=
  match t with
  | [] => [x]
  | y :: t' => if Nat.leb (snd y) (snd x) then x :: t else y :: insert_desc x t'
  end.

Definition small_sort_count_desc (t : Table) : Table := fold_right insert_desc [] t.

(** The rounding used in concrete evaluations: exact value kept. *)
Definition round2_exact (q : Q) : Q := q.

(** A sample frame: the rows of the repository's test [test_compute_kpis_basic]
    (received 2025-09-22, ordinal 739516). *)
Definition test_rows : list (nat * Row) :=
  [(0%nat, mkRow "A" "X" "Mitigation" "Yes" (Some 739516) "Alex" (Some 739516)
                 "Completed" "D-1" (Some 739519) []);
   (1%nat, mkRow "B" "X" "Mitigation" "No" (Some 739516) "" None "New" "" None []);
   (2%nat, mkRow "C" "Y" "Reconstruction" "Yes" (Some 739516) "Jamie" (Some 739517)
                 "In Progress" "D-2" None [])]%string.

Definition test_df : DataFrame := mkDF REQUIRED_COLUMNS test_rows.

(** ** [load_data] *)

(** [str.isspace()] on an ASCII character: tab, newline, vertical tab, form
    feed, carriage return, the separators 0x1c-0x1f and space. *)
Definition py_isspace (c : ascii) : bool :=
  let n := nat_of_ascii c in
  ((Nat.leb 9 n && Nat.leb n 13) || (Nat.leb 28 n && Nat.leb n 32))%bool.

Fixpoint drop_space (l : list ascii) : list ascii :=
  match l with
  | [] => []
  | c :: l' => if py_isspace c then drop_space l' else l
  end.

(** [str.strip()]: whitespace removed at both ends. *)
Definition py_strip (s : string) : string :=
  string_of_list_ascii (rev (drop_space (rev (drop_space (list_ascii_of_string s))))).

(** A CSV as [pd.read_csv(path, dtype=str)] returns it: the header and, per
    line, the value of each column ([None] for a value read_csv reads as
    missing). *)
Record RawFrame := mkRaw {
  raw_columns : list string;
  raw_rows : list (list (string * option string))
}.

(** The cell of column [c] after [.fillna("")]. *)
Fixpoint raw_cell (c : string) (cells : list (string * option string)) : string :=
  match cells with
  | [] => ""%string
  | (c', v) :: cells' =>
      if String.eqb c c' then match v with Some s => s | None => ""%string end
      else raw_cell c cells'
  end.

Section LoadData.
Local Open Scope string_scope.

(** [pd.to_datetime(column, errors="coerce").dt.date] on a whole column (pandas
    infers one format for the column); [None] is [NaT]. *)
Variable parse_dates : list string -> list (option date).

Definition date_column (raw : RawFrame) (c : string) : list (option date) :=
  parse_dates (map (raw_cell c) (raw_rows raw)).

(** The row at position [i] of the loaded frame. *)
Definition load_row (raw : RawFrame) (i : nat) (cells : list (string * option string)) : Row :=
  let cols := raw_columns raw in
  let text c := raw_cell c cells in
  let stripped c := if mem c cols then py_strip (text c) else text c in
  let parsed c := if mem c cols then nth i (date_column raw c) None else None in
  mkRow (text "claim_id") (stripped "branch") (stripped "line_of_service")
        (stripped "is_assignment") (parsed "received_date") (stripped "assigned_pm")
        (parsed "assigned_date") (stripped "status") (text "dash_job_id")
        (parsed "completed_date")
        (map (fun c => (c, CStr (text c)))
             (filter (fun c => negb (mem c REQUIRED_COLUMNS)) cols)).

Fixpoint load_rows (raw : RawFrame) (i : nat) (ls : list (list (string * option string)))
  : list (nat * Row) :=
  match ls with
  | [] => []
  | cells :: ls' => (i, load_row raw i cells) :: load_rows raw (S i) ls'
  end.

(** [load_data(path)] on the frame read from [path] (labels 0, 1, ...). *)
Definition load_data (raw : RawFrame) : DataFrame :=
  mkDF (raw_columns raw) (load_rows raw 0 (raw_rows raw)).

End LoadData.

(** ** [main] *)

(** What [main] hands to [write_excel]. *)
Record Report := mkReport {
  report_start : date;
  report_end : date;
  report_kpis : KPIs * Table * Table * Table;
  report_raw_data : DataFrame;
  report_errors : list Issue
}.

Section Main.
Local Open Scope string_scope.

Variable parse_dates : list string -> list (option date).
(** [datetime.strptime(s, "%Y-%m-%d").date()]; [None] is its [ValueError]. *)
Variable strptime_date : string -> option date.
Variable sort_count_desc : Table -> Table.
Variable round2 : Q -> Q.

(** The week of [main]: an empty or absent [--week-start] is falsy and selects
    the default week. *)
Definition select_week (week_start : option string) (today : date) : option (date * date) :=
  match week_start with
  | Some s =>
      if String.eqb s "" then Some (last_full_week today)
      else match strptime_date s with
           | Some d => Some (d, d + 6)
           | None => None
           end
  | None => Some (last_full_week today)
  end.

(** The body of [main] up to [write_excel]; [None] is an uncaught exception. *)
Definition main_core (week_start : option string) (today : date) (raw : RawFrame)
    (sla_assign_days sla_complete_days : Z) : option Report :=
  match select_week week_start today with
  | None => None
  | Some (start, end_) =>
      let df := load_data parse_dates raw in
      match filter_week df start end_ with
      | None => None
      | Some df_week =>
          let errors_df := validate df_week in
          match compute_kpis sort_count_desc round2 df_week sla_assign_days sla_complete_days with
          | None => None
          | Some (res, df_week') => Some (mkReport start end_ res df_week' errors_df)
          end
      end
  end.

End Main.

(** The KPI dict of the result of [compute_kpis]. *)
Definition kpis_of (res : KPIs * Table * Table * Table) : KPIs := fst (fst (fst res)).

Definition assign_breach_key (t : Z) : string :=
  ("SLA Breaches: Assign>" ++ py_str_int t ++ "d")%string.

Definition complete_breach_key (t : Z) : string :=
  ("SLA Breaches: Complete>" ++ py_str_int t ++ "d")%string.

(** Following the spec's words: the non-null values of a derived per-row
    quantity, in row order. *)
Definition spec_nonnull_values (f : Row -> option Z) (df : DataFrame) : list Z :=
  flat_map (fun p => match f (snd p) with Some x => [x] | None => [] end) (rows df).

(** Following the spec's words: the number of rows whose derived quantity is
    non-null and strictly greater than the threshold [t]. *)
Definition spec_breach_count (f : Row -> option Z) (t : Z) (df : DataFrame) : Z :=
  count_true (fun p => match f (snd p) with Some x => t <? x | None => false end) (rows df).

(** Both ten-field records agree on every required column. *)
Definition same_required_fields (r r' : Row) : Prop :=
  claim_id r = claim_id r' /\ branch r = branch r' /\
  line_of_service r = line_of_service r' /\ is_assignment r = is_assignment r' /\
  received_date r = received_date r' /\ assigned_pm r = assigned_pm r' /\
  assigned_date r = assigned_date r' /\ status r = status r' /\
  dash_job_id r = dash_job_id r' /\ completed_date r = completed_date r'.

(** ** Groupings and the added columns *)

(** The count of key [k] in a grouping table, 0 when [k] has no row. *)
Definition table_count (k : string) (t : Table) : nat :=
  match find (fun e => String.eqb (fst e) k) t with
  | Some e => snd e
  | None => 0%nat
  end.

(** The sum of the counts of a table. *)
Definition table_total (t : Table) : nat :=
  fold_right (fun e acc => (snd e + acc)%nat) 0%nat t.

(** Keys in strictly ascending order. *)
Definition key_before (x y : string * nat) : Prop :=
  String.compare (fst x) (fst y) = Lt.

(** The two assignments [compute_kpis] makes on its frame. *)
Definition add_lag_columns (df : DataFrame) : DataFrame :=
  add_column "resolution_days" (fun r => CInt (resolution_days r))
    (add_column "assign_lag_days" (fun r => CInt (assign_lag_days r)) df).

(** ** A sample file *)

Definition digit_value (c : ascii) : option Z :=
  let n := Z.of_nat (nat_of_ascii c) - 48 in
  if ((0 <=? n) && (n <=? 9))%bool then Some n else None.

Fixpoint digits_value (l : list ascii) (acc : Z) : option Z :=
  match l with
  | [] => Some acc
  | c :: l' => match digit_value c with
               | Some d => digits_value l' (10 * acc + d)
               | None => None
               end
  end.

Definition is_leap (y : Z) : bool :=
  ((Z.eqb (y mod 4) 0 && negb (Z.eqb (y mod 100) 0)) || Z.eqb (y mod 400) 0)%bool.

Definition days_in_month (y m : Z) : Z :=
  if Z.eqb m 2 then (if is_leap y then 29 else 28)
  else if existsb (Z.eqb m) [4; 6; 9; 11] then 30 else 31.

Definition days_before_month (y m : Z) : Z :=
  fold_right Z.add 0 (map (fun k => days_in_month y (Z.of_nat k)) (seq 1 (Z.to_nat (m - 1)))).

(** [date(y, m, d).toordinal()]. *)
Definition ymd_ordinal (y m d : Z) : date :=
  let y1 := y - 1 in
  y1 * 365 + y1 / 4 - y1 / 100 + y1 / 400 + days_before_month y m + d.

(** A "YYYY-MM-DD" reader: [None] for anything else or an impossible
    date. *)
Definition iso_date (s : string) : option date :=
  match list_ascii_of_string s with
  | [y1; y2; y3; y4; "-"; m1; m2; "-"; d1; d2]%char =>
      match digits_value [y1; y2; y3; y4] 0, digits_value [m1; m2] 0, digits_value [d1; d2] 0 with
      | Some y, Some m, Some d =>
          if ((1 <=? y) && (1 <=? m) && (m <=? 12) && (1 <=? d) && (d <=? days_in_month y m))%bool
          then Some (ymd_ordinal y m d) else None
      | _, _, _ => None
      end
  | _ => None
  end.

(** Column-wise date parsing for the sample file: each cell on its own. *)
Definition test_parse_dates (xs : list string) : list (option date) := map iso_date xs.

(** Two data lines received on 2025-09-22 and 2025-09-24; the first is an
    assignment with a blank PM cell and a blank job id cell. *)
Definition test_cells_blank : list (string * option string) :=
  [("claim_id", Some "C-1"); ("branch", Some " North "); ("line_of_service", Some "Mitigation");
   ("is_assignment", Some "Yes"); ("received_date", Some "2025-09-22");
   ("assigned_pm", Some "  "); ("assigned_date", Some "2025-09-23");
   ("status", Some "Completed"); ("dash_job_id", Some " "); ("completed_date", None)]%string.

Definition test_cells_new : list (string * option string) :=
  [("claim_id", Some "C-2"); ("branch", Some "South"); ("line_of_service", Some "Rebuild");
   ("is_assignment", Some "no"); ("received_date", Some "2025-09-24");
   ("assigned_pm", None); ("assigned_date", None);
   ("status", Some "New"); ("dash_job_id", None); ("completed_date", None)]%string.


(** The same file without its [dash_job_id] column. *)
Definition test_raw_no_dash : RawFrame :=
  mkRaw (filter (fun c => negb (String.eqb c "dash_job_id")) REQUIRED_COLUMNS)
        [test_cells_blank; test_cells_new].

(** * Properties *)

(** ** Membership and schema *)

Lemma mem_In (x : string) (xs : list string) : mem x xs = true <-> In x xs.
Proof.
  unfold mem. rewrite existsb_exists. split.
  - intros [y [Hy Hxy]]. apply String.eqb_eq in Hxy. subst. exact Hy.
  - intros Hx. exists x. split; [exact Hx | apply String.eqb_refl].
Qed.

Lemma active_status_allowed (s : string) :
  mem s ["In Progress"; "Completed"; "On Hold"]%string = true ->
  mem s ALLOWED_STATUSES = true.
Proof.
  rewrite !mem_In. simpl. tauto.
Qed.

Lemma missing_columns_In (df : DataFrame) (c : string) :
  In c (missing_columns df) <-> In c REQUIRED_COLUMNS /\ ~ In c (columns df).
Proof.
  unfold missing_columns. rewrite filter_In, negb_true_iff.
  split.
  - intros [Hc Hm]. split; [exact Hc |]. rewrite <- mem_In, Hm. discriminate.
  - intros [Hc Hn]. split; [exact Hc |].
    destruct (mem c (columns df)) eqn:E; [| reflexivity].
    apply mem_In in E. contradiction.
Qed.

(** ** Row-level checks *)

Ltac case_conditions :=
  repeat match goal with
  | |- context [if ?b then _ else _] => destruct b
  | |- context [match ?o with Some _ => _ | None => _ end] => destruct o
  end.

(** Every row-level issue is on one of four fields. *)
Lemma row_checks_fields (idx : nat) (r : Row) (x : Issue) :
  In x (row_checks idx r) ->
  In (field x) ["status"; "dash_job_id"; "assigned_pm"; "assigned_date"]%string.
Proof.
  unfold row_checks. case_conditions; simpl;
    intros H; repeat destruct H as [H | H]; subst; simpl; tauto.
Qed.

Lemma row_checks_not_schema (idx : nat) (r : Row) (x : Issue) :
  In x (row_checks idx r) -> field x <> "schema"%string.
Proof.
  intros H. apply row_checks_fields in H. simpl in H.
  intros E. rewrite E in H. intuition discriminate.
Qed.

Lemma row_checks_bound (idx : nat) (r : Row) :
  (length (row_checks idx r) <= 3)%nat /\
  ~ (In "status"%string (map field (row_checks idx r)) /\
     In "dash_job_id"%string (map field (row_checks idx r))).
Proof.
  unfold row_checks.
  destruct (mem (status r) ALLOWED_STATUSES) eqn:Hall;
  destruct (mem (status r) ["In Progress"; "Completed"; "On Hold"]%string) eqn:Hact;
  try (rewrite (active_status_allowed _ Hact) in Hall; discriminate);
  destruct (String.eqb (status r) ""), (String.eqb (dash_job_id r) ""),
    (mem (str_lower (is_assignment r)) ["yes"; "y"; "true"; "1"]%string),
    (String.eqb (assigned_pm r) ""), (assigned_date r);
  simpl; (split; [lia | intuition discriminate]).
Qed.

(** ** Week window *)

Lemma weekday_eq (d k w : Z) : 0 <= w < 7 -> d + 6 = 7 * k + w -> weekday d = w.
Proof.
  intros Hw Hd. unfold weekday. symmetry.
  apply Z.mod_unique with k; [left; exact Hw | exact Hd].
Qed.

Lemma weekday_div (d : date) : d + 6 = 7 * ((d + 6) / 7) + weekday d /\ 0 <= weekday d < 7.
Proof.
  unfold weekday. split.
  - apply Z.div_mod. lia.
  - apply Z.mod_pos_bound. lia.
Qed.

(** C4: in default mode the window is [today - weekday - 7, today - weekday - 1]:
    seven days, starting on a Monday and ending on the most recent Sunday
    strictly before [today], so it never contains [today]. *)
Theorem last_full_week_spec (today : date) :
  fst (last_full_week today) = today - weekday today - 7 /\
  snd (last_full_week today) = today - weekday today - 1 /\
  snd (last_full_week today) - fst (last_full_week today) + 1 = 7 /\
  weekday (fst (last_full_week today)) = 0 /\
  weekday (snd (last_full_week today)) = 6 /\
  snd (last_full_week today) < today /\
  (forall d, weekday d = 6 -> d < today -> d <= snd (last_full_week today)) /\
  ~ (fst (last_full_week today) <= today <= snd (last_full_week today)).
Proof.
  destruct (weekday_div today) as [Hq Hw].
  unfold last_full_week; simpl.
  set (w := weekday today) in *.
  set (q := (today + 6) / 7) in *.
  repeat split; try lia.
  - apply weekday_eq with (k := q - 1); lia.
  - apply weekday_eq with (k := q - 1); lia.
  - intros d Hd Hlt.
    destruct (weekday_div d) as [Hk _]. rewrite Hd in Hk. lia.
Qed.

(** C3: with the schema complete, [validate] is the concatenation of the
    checks of each row on its own (no row suppresses another's checks), and
    each row yields at most three issues, never both an invalid-status and a
    missing-job-id issue. *)
Theorem validate_rows_independent (df : DataFrame) :
  missing_columns df = [] ->
  validate df = flat_map (fun p => row_checks (fst p) (snd p)) (rows df) /\
  Forall (fun p =>
            (length (row_checks (fst p) (snd p)) <= 3)%nat /\
            ~ (In "status"%string (map field (row_checks (fst p) (snd p))) /\
               In "dash_job_id"%string (map field (row_checks (fst p) (snd p)))))
         (rows df).
Proof.
  intros Hm. split.
  - unfold validate. rewrite Hm. reflexivity.
  - apply Forall_forall. intros p _. apply row_checks_bound.
Qed.

Lemma validate_rows_independent_witness :
  missing_columns test_df = [] /\
  validate test_df = flat_map (fun p => row_checks (fst p) (snd p)) (rows test_df) /\
  Forall (fun p =>
            (length (row_checks (fst p) (snd p)) <= 3)%nat /\
            ~ (In "status"%string (map field (row_checks (fst p) (snd p))) /\
               In "dash_job_id"%string (map field (row_checks (fst p) (snd p)))))
         (rows test_df).
Proof.
  split; [reflexivity |].
  apply (validate_rows_independent test_df). reflexivity.
Defined.

(** C5: a schema missing a required column gives exactly one issue, on field
    ["schema"], whatever the rows; a complete schema gives no schema issue. *)
Theorem validate_schema_short_circuit (df : DataFrame) :
  ((exists c, In c REQUIRED_COLUMNS /\ ~ In c (columns df)) ->
   exists msg, validate df = [mkIssue RowDash "schema" msg]) /\
  ((forall c, In c REQUIRED_COLUMNS -> In c (columns df)) ->
   forall x, In x (validate df) -> field x <> "schema"%string).
Proof.
  split.
  - intros [c Hc]. apply missing_columns_In in Hc.
    unfold validate. destruct (missing_columns df) as [| m ms].
    + destruct Hc.
    + eexists. reflexivity.
  - intros Hall x Hx. unfold validate in Hx.
    destruct (missing_columns df) as [| m ms] eqn:Hm.
    + apply in_flat_map in Hx. destruct Hx as [p [_ Hp]].
      exact (row_checks_not_schema _ _ _ Hp).
    + exfalso.
      assert (Hin : In m (missing_columns df)) by (rewrite Hm; left; reflexivity).
      apply missing_columns_In in Hin. destruct Hin as [Hreq Hnot].
      exact (Hnot (Hall m Hreq)).
Qed.

(** C9: a row whose [received_date] is null is in no week window, and no
    issue of [validate] is ever on field ["received_date"]. *)
Theorem null_received_date_unreported (df : DataFrame) (i : nat) (r : Row) :
  received_date r = None ->
  (forall start end_ df', filter_week df start end_ = Some df' -> ~ In (i, r) (rows df')) /\
  (forall x, In x (validate df) -> field x <> "received_date"%string).
Proof.
  intros Hr. split.
  - intros start end_ df' Hf Hin. unfold filter_week in Hf.
    destruct (mem "received_date" (columns df)); [| discriminate].
    injection Hf as <-. simpl in Hin.
    apply filter_In in Hin. simpl in Hin. rewrite Hr in Hin.
    destruct Hin as [_ Hin]. discriminate.
  - intros x Hx E. unfold validate in Hx.
    destruct (missing_columns df).
    + apply in_flat_map in Hx. destruct Hx as [p [_ Hp]].
      apply row_checks_fields in Hp. rewrite E in Hp. simpl in Hp.
      intuition discriminate.
    + destruct Hx as [Hx | []]. subst x. discriminate.
Qed.

Definition undated_row : Row :=
  mkRow "D" "X" "Mitigation" "Yes" None "" None "Bogus" "" None [].

Definition undated_df : DataFrame :=
  mkDF REQUIRED_COLUMNS (test_rows ++ [(3%nat, undated_row)]).

Lemma null_received_date_unreported_witness :
  received_date undated_row = None /\
  (forall start end_ df', filter_week undated_df start end_ = Some df' ->
     ~ In (3%nat, undated_row) (rows df')) /\
  (forall x, In x (validate undated_df) -> field x <> "received_date"%string).
Proof.
  split; [reflexivity |].
  apply (null_received_date_unreported undated_df 3 undated_row). reflexivity.
Defined.

(** ** KPI aggregation *)

Section KpiProps.

Variable sort_count_desc : Table -> Table.
Variable round2 : Q -> Q.

Lemma compute_kpis_some_inv (df : DataFrame) (a c : Z) res df' :
  compute_kpis sort_count_desc round2 df a c = Some (res, df') ->
  forallb (fun c => mem c (columns df)) kpi_columns = true /\
  kpis_of res =
    [("Total Claims", VInt (Z.of_nat (length (map snd (rows df)))));
     ("Assignments", VInt (count_true (fun r => is_assignment_isin (is_assignment r)) (map snd (rows df))));
     ("Non-Assignments", VInt (Z.of_nat (length (map snd (rows df)))
        - count_true (fun r => is_assignment_isin (is_assignment r)) (map snd (rows df))));
     ("Status: New", VInt (count_true (fun r => String.eqb (status r) "New") (map snd (rows df))));
     ("Status: In Progress", VInt (count_true (fun r => String.eqb (status r) "In Progress") (map snd (rows df))));
     ("Status: Completed", VInt (count_true (fun r => String.eqb (status r) "Completed") (map snd (rows df))));
     ("Status: On Hold", VInt (count_true (fun r => String.eqb (status r) "On Hold") (map snd (rows df))));
     ("Avg Assign Lag (days)", avg_days round2 (map assign_lag_days (map snd (rows df))));
     ("Avg Resolution (days)", avg_days round2 (map resolution_days (map snd (rows df))));
     (assign_breach_key a,
      VInt (count_true (fun o => match o with Some x => (a <? x)%Z | None => false end)
                       (map assign_lag_days (map snd (rows df)))));
     (complete_breach_key c,
      VInt (count_true (fun x => (c <? x)%Z) (dropna (map resolution_days (map snd (rows df))))))]%string /\
  snd (fst (fst res)) = sort_count_desc (groupby_count (map branch (map snd (rows df)))) /\
  snd (fst res) = sort_count_desc (groupby_count (map line_of_service (map snd (rows df)))) /\
  snd res = sort_count_desc (groupby_count (map assigned_pm (map snd (rows df)))) /\
  df' = add_column "resolution_days" (fun r => CInt (resolution_days r))
          (add_column "assign_lag_days" (fun r => CInt (assign_lag_days r)) df).
Proof.
  unfold compute_kpis. destruct (forallb _ kpi_columns); [| discriminate].
  intros H. injection H as <- <-. repeat split; reflexivity.
Qed.

Lemma kpi_head (k : string) (v : Value) (l : KPIs) : kpi k ((k, v) :: l) = Some v.
Proof. simpl. rewrite String.eqb_refl. reflexivity. Qed.

Lemma kpi_skip (k k' : string) (v : Value) (l : KPIs) :
  k <> k' -> kpi k ((k', v) :: l) = kpi k l.
Proof.
  intros Hne. simpl. destruct (String.eqb k k') eqn:E; [| reflexivity].
  apply String.eqb_eq in E. contradiction.
Qed.

Ltac lookup_kpi :=
  repeat (rewrite kpi_head ||
          rewrite kpi_skip by (unfold assign_breach_key, complete_breach_key; discriminate)).

(** *** Averages *)

Lemma notna_any_false (xs : list (option Z)) :
  notna_any xs = false <-> Forall (fun o => o = None) xs.
Proof.
  unfold notna_any. induction xs as [| o xs IH]; simpl.
  - split; constructor.
  - destruct o as [x |]; simpl.
    + split; [discriminate | intros H; inversion H; discriminate].
    + rewrite IH. split; [intros H; constructor; auto | intros H; inversion H; auto].
Qed.

Lemma notna_any_true (xs : list (option Z)) :
  notna_any xs = true <-> Exists (fun o => o <> None) xs.
Proof.
  unfold notna_any. rewrite existsb_exists, Exists_exists.
  split; intros [o [Ho H]]; exists o; split; auto; destruct o.
  - discriminate.
  - discriminate H.
  - reflexivity.
  - contradiction.
Qed.

Lemma dropna_nonempty (xs : list (option Z)) :
  Exists (fun o => o <> None) xs -> (0 < length (dropna xs))%nat.
Proof.
  induction 1 as [o xs Ho | o xs _ IH].
  - destruct o; [simpl; lia | contradiction].
  - destruct o; simpl; lia.
Qed.

Lemma avg_days_spec (xs : list (option Z)) :
  (avg_days round2 xs = VNaN <-> Forall (fun o => o = None) xs) /\
  (Exists (fun o => o <> None) xs ->
     (0 < length (dropna xs))%nat /\ avg_days round2 xs = VNum (round2 (mean (dropna xs)))).
Proof.
  unfold avg_days. split.
  - destruct (notna_any xs) eqn:E.
    + split; [discriminate |].
      intros Hall. apply notna_any_true in E.
      rewrite Exists_exists in E. destruct E as [o [Ho Hne]].
      rewrite Forall_forall in Hall. exact (False_ind _ (Hne (Hall o Ho))).
    + apply notna_any_false in E. split; auto.
  - intros Hex. split; [exact (dropna_nonempty _ Hex) |].
    apply notna_any_true in Hex. rewrite Hex. reflexivity.
Qed.

Lemma dropna_map_nonnull (f : Row -> option Z) (df : DataFrame) :
  dropna (map (fun p => f (snd p)) (rows df)) = spec_nonnull_values f df.
Proof.
  unfold spec_nonnull_values. destruct df as [cols ps]. simpl.
  induction ps as [| [i r] ps IH]; simpl; [reflexivity |].
  destruct (f r); simpl; rewrite IH; reflexivity.
Qed.

Lemma avg_days_rows (f : Row -> option Z) (df : DataFrame) :
  (Some (avg_days round2 (map f (map snd (rows df)))) = Some VNaN <->
     Forall (fun p => f (snd p) = None) (rows df)) /\
  (Exists (fun p => f (snd p) <> None) (rows df) ->
     (0 < length (spec_nonnull_values f df))%nat /\
     Some (avg_days round2 (map f (map snd (rows df)))) =
       Some (VNum (round2 (mean (spec_nonnull_values f df))))).
Proof.
  rewrite map_map, <- dropna_map_nonnull.
  destruct (avg_days_spec (map (fun p => f (snd p)) (rows df))) as [H1 H2].
  rewrite Forall_map in H1. rewrite Exists_map in H2. split.
  - rewrite <- H1. split; [intros H; injection H; auto | intros ->; reflexivity].
  - intros Hex. destruct (H2 Hex) as [Hl Ha]. rewrite Ha. auto.
Qed.

(** *** Counting *)

Lemma count_true_map {A B} (p : B -> bool) (g : A -> B) (l : list A) :
  count_true p (map g l) = count_true (fun x => p (g x)) l.
Proof.
  unfold count_true. f_equal.
  induction l as [| x l IH]; simpl; [reflexivity |].
  destruct (p (g x)); simpl; rewrite ?IH; reflexivity.
Qed.

Lemma count_true_dropna (t : Z) (xs : list (option Z)) :
  count_true (fun x => t <? x) (dropna xs) =
  count_true (fun o => match o with Some x => t <? x | None => false end) xs.
Proof.
  unfold count_true. f_equal.
  induction xs as [| [x |] xs IH]; simpl; [reflexivity | | exact IH].
  destruct (t <? x); simpl; rewrite ?IH; reflexivity.
Qed.

Lemma filter_length_mono {A} (p q : A -> bool) (l : list A) :
  (forall x, p x = true -> q x = true) ->
  (length (filter p l) <= length (filter q l))%nat.
Proof.
  intros H. induction l as [| x l IH]; simpl; [lia |].
  destruct (p x) eqn:Ep.
  - rewrite (H x Ep). simpl. lia.
  - destruct (q x); simpl; lia.
Qed.

Lemma spec_breach_count_mono (f : Row -> option Z) (t1 t2 : Z) (df : DataFrame) :
  t1 <= t2 -> spec_breach_count f t2 df <= spec_breach_count f t1 df.
Proof.
  intros Ht. unfold spec_breach_count, count_true.
  apply Nat2Z.inj_le, filter_length_mono.
  intros p. destruct (f (snd p)) as [x |]; [| discriminate].
  rewrite !Z.ltb_lt. lia.
Qed.

Lemma assign_breaches_kpi (df : DataFrame) (a c : Z) res df' :
  compute_kpis sort_count_desc round2 df a c = Some (res, df') ->
  kpi (assign_breach_key a) (kpis_of res) = Some (VInt (spec_breach_count assign_lag_days a df)) /\
  kpi (complete_breach_key c) (kpis_of res) = Some (VInt (spec_breach_count resolution_days c df)).
Proof.
  intros H. apply compute_kpis_some_inv in H. destruct H as [_ [Hout _]].
  rewrite Hout. unfold spec_breach_count. split.
  - lookup_kpi. rewrite !count_true_map. reflexivity.
  - lookup_kpi. rewrite count_true_dropna, !count_true_map. reflexivity.
Qed.

(** *** The added columns *)

Lemma cell_at_set_same (c : string) (v : Cell) (e : list (string * Cell)) :
  cell_at c (set_extra c v e) = Some v.
Proof.
  induction e as [| [c' v'] e IH]; simpl.
  - rewrite String.eqb_refl. reflexivity.
  - destruct (String.eqb c c') eqn:E; simpl; rewrite E; [reflexivity | exact IH].
Qed.

Lemma cell_at_set_other (c k : string) (v : Cell) (e : list (string * Cell)) :
  k <> c -> cell_at k (set_extra c v e) = cell_at k e.
Proof.
  intros Hne. induction e as [| [c' v'] e IH]; simpl.
  - destruct (String.eqb k c) eqn:E; [apply String.eqb_eq in E; contradiction | reflexivity].
  - destruct (String.eqb c c') eqn:E; simpl.
    + apply String.eqb_eq in E. subst c'.
      destruct (String.eqb k c) eqn:E2; [| reflexivity].
      apply String.eqb_eq in E2. contradiction.
    + destruct (String.eqb k c'); [reflexivity | exact IH].
Qed.

(** *** Claims on [compute_kpis] *)

(** C6: each average is [np.nan] exactly when every row has a null derived
    value; otherwise it is the rounded mean of the non-null values, taken
    over a non-empty list (no division by zero). *)
Theorem avg_undefined_iff_all_null (df : DataFrame) (a c : Z) res df' :
  compute_kpis sort_count_desc round2 df a c = Some (res, df') ->
  (kpi "Avg Assign Lag (days)" (kpis_of res) = Some VNaN <->
     Forall (fun p => assign_lag_days (snd p) = None) (rows df)) /\
  (Exists (fun p => assign_lag_days (snd p) <> None) (rows df) ->
     (0 < length (spec_nonnull_values assign_lag_days df))%nat /\
     kpi "Avg Assign Lag (days)" (kpis_of res) =
       Some (VNum (round2 (mean (spec_nonnull_values assign_lag_days df))))) /\
  (kpi "Avg Resolution (days)" (kpis_of res) = Some VNaN <->
     Forall (fun p => resolution_days (snd p) = None) (rows df)) /\
  (Exists (fun p => resolution_days (snd p) <> None) (rows df) ->
     (0 < length (spec_nonnull_values resolution_days df))%nat /\
     kpi "Avg Resolution (days)" (kpis_of res) =
       Some (VNum (round2 (mean (spec_nonnull_values resolution_days df))))).
Proof.
  intros H. apply compute_kpis_some_inv in H. destruct H as [_ [Hout _]].
  rewrite Hout. lookup_kpi.
  destruct (avg_days_rows assign_lag_days df) as [A1 A2].
  destruct (avg_days_rows resolution_days df) as [R1 R2].
  auto.
Qed.

(** C7: the breach counts are the numbers of rows whose lag is non-null and
    strictly above the threshold, and they do not increase when the
    threshold does. *)
Theorem sla_breaches_monotone (df : DataFrame) (t1 t2 c1 c2 : Z) res1 df1 res2 df2 :
  t1 <= t2 -> c1 <= c2 ->
  compute_kpis sort_count_desc round2 df t1 c1 = Some (res1, df1) ->
  compute_kpis sort_count_desc round2 df t2 c2 = Some (res2, df2) ->
  kpi (assign_breach_key t1) (kpis_of res1) = Some (VInt (spec_breach_count assign_lag_days t1 df)) /\
  kpi (assign_breach_key t2) (kpis_of res2) = Some (VInt (spec_breach_count assign_lag_days t2 df)) /\
  spec_breach_count assign_lag_days t2 df <= spec_breach_count assign_lag_days t1 df /\
  kpi (complete_breach_key c1) (kpis_of res1) = Some (VInt (spec_breach_count resolution_days c1 df)) /\
  kpi (complete_breach_key c2) (kpis_of res2) = Some (VInt (spec_breach_count resolution_days c2 df)) /\
  spec_breach_count resolution_days c2 df <= spec_breach_count resolution_days c1 df.
Proof.
  intros Ht Hc H1 H2.
  destruct (assign_breaches_kpi _ _ _ _ _ H1) as [A1 C1].
  destruct (assign_breaches_kpi _ _ _ _ _ H2) as [A2 C2].
  repeat split; auto using spec_breach_count_mono.
Qed.

(** C8: "Assignments" counts the rows that pass [is_assignment_isin], and
    [validate]'s missing-PM and missing-date checks fire on a row exactly
    when that same test passes (and the PM or date is missing). *)
Theorem assignment_count_matches_validation (df : DataFrame) (a c : Z) res df' :
  compute_kpis sort_count_desc round2 df a c = Some (res, df') ->
  kpi "Assignments" (kpis_of res) =
    Some (VInt (count_true (fun p => is_assignment_isin (is_assignment (snd p))) (rows df))) /\
  (forall idx r,
     (In (mkIssue (RowIdx idx) "assigned_pm" "Missing assigned PM on assignment") (row_checks idx r) <->
        is_assignment_isin (is_assignment r) = true /\ assigned_pm r = ""%string) /\
     (In (mkIssue (RowIdx idx) "assigned_date" "Missing assigned_date on assignment") (row_checks idx r) <->
        is_assignment_isin (is_assignment r) = true /\ assigned_date r = None)).
Proof.
  intros H. apply compute_kpis_some_inv in H. destruct H as [_ [Hout _]].
  split.
  - rewrite Hout. lookup_kpi. rewrite count_true_map. reflexivity.
  - intros idx r. unfold row_checks, is_assignment_isin.
    destruct (String.eqb (assigned_pm r) "") eqn:Epm;
      [apply String.eqb_eq in Epm | apply String.eqb_neq in Epm];
    destruct (assigned_date r) eqn:Ed;
    destruct (mem (str_lower (is_assignment r)) ["yes"; "y"; "true"; "1"]%string);
    case_conditions; simpl;
    split; split; intros Hx; intuition (try discriminate; try congruence).
Qed.

(** C10: on an empty frame with the ten columns [compute_kpis] returns; every
    count is 0, both averages are [np.nan], and the three tables are empty. *)
Theorem compute_kpis_empty (cols : list string) (a c : Z) :
  forallb (fun k => mem k cols) REQUIRED_COLUMNS = true ->
  sort_count_desc [] = [] ->
  exists out df',
    compute_kpis sort_count_desc round2 (mkDF cols []) a c = Some ((out, [], [], []), df') /\
    kpi "Total Claims" out = Some (VInt 0) /\
    kpi "Assignments" out = Some (VInt 0) /\
    kpi "Non-Assignments" out = Some (VInt 0) /\
    kpi "Status: New" out = Some (VInt 0) /\
    kpi "Status: In Progress" out = Some (VInt 0) /\
    kpi "Status: Completed" out = Some (VInt 0) /\
    kpi "Status: On Hold" out = Some (VInt 0) /\
    kpi "Avg Assign Lag (days)" out = Some VNaN /\
    kpi "Avg Resolution (days)" out = Some VNaN /\
    kpi (assign_breach_key a) out = Some (VInt 0) /\
    kpi (complete_breach_key c) out = Some (VInt 0).
Proof.
  intros Hreq Hsort.
  assert (Hk : forallb (fun k => mem k cols) kpi_columns = true).
  { rewrite forallb_forall in Hreq |- *. intros k Hk. apply Hreq.
    simpl in Hk. repeat destruct Hk as [Hk | Hk]; subst; simpl; tauto. }
  destruct (compute_kpis sort_count_desc round2 (mkDF cols []) a c) as [[res df'] |] eqn:E.
  2: { unfold compute_kpis in E. cbn [columns] in E. rewrite Hk in E. discriminate. }
  destruct (compute_kpis_some_inv _ _ _ _ _ E) as [_ [Hout [Hb [Hs [Hp _]]]]].
  destruct res as [[[out b] s] p].
  cbn [kpis_of fst snd rows map groupby_count fold_left] in Hout, Hb, Hs, Hp.
  rewrite Hsort in Hb, Hs, Hp. subst b s p.
  exists out, df'. split; [reflexivity |].
  rewrite Hout. repeat split; lookup_kpi; reflexivity.
Qed.

(** C1, as the code has it: [compute_kpis] assigns the columns
    [assign_lag_days] and [resolution_days] on the frame it is given (appended
    when new), holding each row's lags; the row labels, the ten required
    fields and every other column are left as they were. *)
Theorem compute_kpis_adds_lag_columns (df : DataFrame) (a c : Z) res df' :
  compute_kpis sort_count_desc round2 df a c = Some (res, df') ->
  columns df' = set_column_name "resolution_days" (set_column_name "assign_lag_days" (columns df)) /\
  Forall2 (fun p p' =>
             fst p' = fst p /\ same_required_fields (snd p) (snd p') /\
             cell_at "assign_lag_days" (extra (snd p')) = Some (CInt (assign_lag_days (snd p))) /\
             cell_at "resolution_days" (extra (snd p')) = Some (CInt (resolution_days (snd p))) /\
             (forall k, k <> "assign_lag_days"%string -> k <> "resolution_days"%string ->
                cell_at k (extra (snd p')) = cell_at k (extra (snd p))))
          (rows df) (rows df').
Proof.
  intros H. apply compute_kpis_some_inv in H. destruct H as [_ [_ [_ [_ [_ ->]]]]].
  split; [reflexivity |].
  destruct df as [cols ps]. simpl. clear.
  induction ps as [| [i r] ps IH]; simpl; constructor; [| exact IH].
  simpl. unfold same_required_fields. repeat split.
  - rewrite cell_at_set_other by discriminate. apply cell_at_set_same.
  - apply cell_at_set_same.
  - intros k H1 H2. rewrite !cell_at_set_other by assumption. reflexivity.
Qed.

End KpiProps.

(** ** Concrete instances of the [compute_kpis] theorems *)

(** C1 fails: on the frame of the repository's test, the frame given to
    [compute_kpis] gains two columns. *)
Lemma compute_kpis_mutates_input :
  exists res df',
    compute_kpis small_sort_count_desc round2_exact test_df 1 7 = Some (res, df') /\
    columns df' <> columns test_df.
Proof.
  do 2 eexists. split; [reflexivity |].
  vm_compute. discriminate.
Qed.

Lemma compute_kpis_adds_lag_columns_witness :
  exists res df',
    compute_kpis small_sort_count_desc round2_exact test_df 1 7 = Some (res, df') /\
    columns df' = set_column_name "resolution_days" (set_column_name "assign_lag_days" (columns test_df)) /\
    Forall2 (fun p p' =>
               fst p' = fst p /\ same_required_fields (snd p) (snd p') /\
               cell_at "assign_lag_days" (extra (snd p')) = Some (CInt (assign_lag_days (snd p))) /\
               cell_at "resolution_days" (extra (snd p')) = Some (CInt (resolution_days (snd p))) /\
               (forall k, k <> "assign_lag_days"%string -> k <> "resolution_days"%string ->
                  cell_at k (extra (snd p')) = cell_at k (extra (snd p))))
            (rows test_df) (rows df').
Proof.
  do 2 eexists. split; [reflexivity |].
  eapply (compute_kpis_adds_lag_columns small_sort_count_desc round2_exact test_df 1 7).
  reflexivity.
Defined.

Lemma avg_undefined_iff_all_null_witness :
  exists res df',
    compute_kpis small_sort_count_desc round2_exact test_df 1 7 = Some (res, df') /\
    (kpi "Avg Assign Lag (days)" (kpis_of res) = Some VNaN <->
       Forall (fun p => assign_lag_days (snd p) = None) (rows test_df)) /\
    (Exists (fun p => assign_lag_days (snd p) <> None) (rows test_df) ->
       (0 < length (spec_nonnull_values assign_lag_days test_df))%nat /\
       kpi "Avg Assign Lag (days)" (kpis_of res) =
         Some (VNum (round2_exact (mean (spec_nonnull_values assign_lag_days test_df))))) /\
    (kpi "Avg Resolution (days)" (kpis_of res) = Some VNaN <->
       Forall (fun p => resolution_days (snd p) = None) (rows test_df)) /\
    (Exists (fun p => resolution_days (snd p) <> None) (rows test_df) ->
       (0 < length (spec_nonnull_values resolution_days test_df))%nat /\
       kpi "Avg Resolution (days)" (kpis_of res) =
         Some (VNum (round2_exact (mean (spec_nonnull_values resolution_days test_df))))).
Proof.
  do 2 eexists. split; [reflexivity |].
  eapply (avg_undefined_iff_all_null small_sort_count_desc round2_exact test_df 1 7).
  reflexivity.
Defined.

Lemma sla_breaches_monotone_witness :
  exists res1 df1 res2 df2,
    1 <= 2 /\ 7 <= 8 /\
    compute_kpis small_sort_count_desc round2_exact test_df 1 7 = Some (res1, df1) /\
    compute_kpis small_sort_count_desc round2_exact test_df 2 8 = Some (res2, df2) /\
    kpi (assign_breach_key 1) (kpis_of res1) = Some (VInt (spec_breach_count assign_lag_days 1 test_df)) /\
    kpi (assign_breach_key 2) (kpis_of res2) = Some (VInt (spec_breach_count assign_lag_days 2 test_df)) /\
    spec_breach_count assign_lag_days 2 test_df <= spec_breach_count assign_lag_days 1 test_df /\
    kpi (complete_breach_key 7) (kpis_of res1) = Some (VInt (spec_breach_count resolution_days 7 test_df)) /\
    kpi (complete_breach_key 8) (kpis_of res2) = Some (VInt (spec_breach_count resolution_days 8 test_df)) /\
    spec_breach_count resolution_days 8 test_df <= spec_breach_count resolution_days 7 test_df.
Proof.
  do 4 eexists. split; [lia |]. split; [lia |].
  split; [reflexivity |]. split; [reflexivity |].
  eapply (sla_breaches_monotone small_sort_count_desc round2_exact test_df 1 2 7 8); 
    first [lia | reflexivity].
Defined.

Lemma assignment_count_matches_validation_witness :
  exists res df',
    compute_kpis small_sort_count_desc round2_exact test_df 1 7 = Some (res, df') /\
    kpi "Assignments" (kpis_of res) =
      Some (VInt (count_true (fun p => is_assignment_isin (is_assignment (snd p))) (rows test_df))) /\
    (forall idx r,
       (In (mkIssue (RowIdx idx) "assigned_pm" "Missing assigned PM on assignment") (row_checks idx r) <->
          is_assignment_isin (is_assignment r) = true /\ assigned_pm r = ""%string) /\
       (In (mkIssue (RowIdx idx) "assigned_date" "Missing assigned_date on assignment") (row_checks idx r) <->
          is_assignment_isin (is_assignment r) = true /\ assigned_date r = None)).
Proof.
  do 2 eexists. split; [reflexivity |].
  eapply (assignment_count_matches_validation small_sort_count_desc round2_exact test_df 1 7).
  reflexivity.
Defined.

Lemma compute_kpis_empty_witness :
  forallb (fun k => mem k REQUIRED_COLUMNS) REQUIRED_COLUMNS = true /\
  small_sort_count_desc [] = [] /\
  exists out df',
    compute_kpis small_sort_count_desc round2_exact (mkDF REQUIRED_COLUMNS []) 1 7
      = Some ((out, [], [], []), df') /\
    kpi "Total Claims" out = Some (VInt 0) /\
    kpi "Assignments" out = Some (VInt 0) /\
    kpi "Non-Assignments" out = Some (VInt 0) /\
    kpi "Status: New" out = Some (VInt 0) /\
    kpi "Status: In Progress" out = Some (VInt 0) /\
    kpi "Status: Completed" out = Some (VInt 0) /\
    kpi "Status: On Hold" out = Some (VInt 0) /\
    kpi "Avg Assign Lag (days)" out = Some VNaN /\
    kpi "Avg Resolution (days)" out = Some VNaN /\
    kpi (assign_breach_key 1) out = Some (VInt 0) /\
    kpi (complete_breach_key 7) out = Some (VInt 0).
Proof.
  split; [reflexivity |]. split; [reflexivity |].
  apply (compute_kpis_empty small_sort_count_desc round2_exact REQUIRED_COLUMNS 1 7);
    reflexivity.
Defined.

(** * Further properties of the pipeline *)

Ltac leb_to_prop :=
  repeat match goal with
  | H : (_ <=? _) = true |- _ => apply Z.leb_le in H
  | H : (_ <=? _) = false |- _ => apply Z.leb_gt in H
  end.

Ltac find_kpi :=
  repeat (rewrite kpi_head ||
          rewrite kpi_skip by (unfold assign_breach_key, complete_breach_key; discriminate)).

(** ** Week window and filtering *)

Lemma filter_filter_andb {A} (f g : A -> bool) (l : list A) :
  filter g (filter f l) = filter (fun x => (f x && g x)%bool) l.
Proof.
  induction l as [| x l IH]; simpl; [reflexivity |].
  destruct (f x); simpl; [destruct (g x); simpl; rewrite IH |]; reflexivity || exact IH.
Qed.

Lemma in_week_inter (s1 e1 s2 e2 : date) (d : option date) :
  (in_week s1 e1 d && in_week s2 e2 d)%bool = in_week (Z.max s1 s2) (Z.min e1 e2) d.
Proof.
  destruct d as [x |]; simpl; [| reflexivity].
  destruct (s1 <=? x) eqn:E1, (x <=? e1) eqn:E2, (s2 <=? x) eqn:E3, (x <=? e2) eqn:E4,
    (Z.max s1 s2 <=? x) eqn:E5, (x <=? Z.min e1 e2) eqn:E6;
    leb_to_prop; simpl; first [reflexivity | exfalso; lia].
Qed.

(** Filtering a filtered week again keeps the rows of the intersection of
    the two windows; in particular [filter_week] is idempotent. *)
Theorem filter_week_compose (df df1 : DataFrame) (s1 e1 s2 e2 : date) :
  filter_week df s1 e1 = Some df1 ->
  filter_week df1 s2 e2 = filter_week df (Z.max s1 s2) (Z.min e1 e2).
Proof.
  unfold filter_week. destruct (mem "received_date" (columns df)) eqn:E; [| discriminate].
  intros H. injection H as <-. simpl. rewrite E.
  rewrite filter_filter_andb.
  do 2 f_equal. apply filter_ext. intros p. apply in_week_inter.
Qed.

Lemma filter_week_compose_witness :
  filter_week test_df 739516 739522 =
    Some (mkDF REQUIRED_COLUMNS (filter (fun p => in_week 739516 739522 (received_date (snd p))) test_rows)) /\
  filter_week (mkDF REQUIRED_COLUMNS (filter (fun p => in_week 739516 739522 (received_date (snd p))) test_rows))
              739510 739517 =
    filter_week test_df (Z.max 739516 739510) (Z.min 739522 739517).
Proof.
  split; [reflexivity |].
  apply (filter_week_compose test_df _ 739516 739522 739510 739517). reflexivity.
Defined.

(** With the default window, [filter_week] keeps only rows received in the
    Monday-to-Sunday week before the current one: each kept row has a
    received date at least [weekday today + 7] and at most
    [weekday today + 1] days before [today]. *)
Theorem filter_last_full_week_rows (df df' : DataFrame) (today : date) :
  filter_week df (fst (last_full_week today)) (snd (last_full_week today)) = Some df' ->
  columns df' = columns df /\
  incl (rows df') (rows df) /\
  Forall (fun p => exists d, received_date (snd p) = Some d /\
                             today - weekday today - 7 <= d <= today - weekday today - 1)
         (rows df').
Proof.
  unfold filter_week. destruct (mem "received_date" (columns df)); [| discriminate].
  intros H. injection H as <-. simpl. split; [reflexivity |]. split.
  - intros p Hp. apply filter_In in Hp. exact (proj1 Hp).
  - apply Forall_forall. intros p Hp. apply filter_In in Hp. destruct Hp as [_ Hp].
    unfold last_full_week, in_week in Hp. simpl in Hp.
    destruct (received_date (snd p)) as [d |]; [| discriminate].
    apply andb_prop in Hp. destruct Hp as [H1 H2]. leb_to_prop.
    exists d. split; [reflexivity | lia].
Qed.

Lemma filter_last_full_week_rows_witness :
  filter_week test_df (fst (last_full_week 739523)) (snd (last_full_week 739523)) = Some test_df /\
  columns test_df = columns test_df /\ incl (rows test_df) (rows test_df) /\
  Forall (fun p => exists d, received_date (snd p) = Some d /\
                             739523 - weekday 739523 - 7 <= d <= 739523 - weekday 739523 - 1)
         (rows test_df).
Proof.
  split; [reflexivity |].
  apply (filter_last_full_week_rows test_df test_df 739523). reflexivity.
Defined.

(** The default window depends only on the week of [today]: two days of the
    same Monday-to-Sunday week give the same window, and the window of the
    next week is the current one moved by seven days. *)
Theorem last_full_week_weekly (d1 d2 : date) :
  (d1 - weekday d1 = d2 - weekday d2 -> last_full_week d1 = last_full_week d2) /\
  last_full_week (d1 + 7) = (fst (last_full_week d1) + 7, snd (last_full_week d1) + 7).
Proof.
  split.
  - intros H. unfold last_full_week. f_equal; lia.
  - unfold last_full_week. simpl.
    assert (Hw : weekday (d1 + 7) = weekday d1).
    { unfold weekday. replace (d1 + 7 + 6) with ((d1 + 6) + 1 * 7) by lia.
      apply Z.mod_add. lia. }
    rewrite Hw. f_equal; lia.
Qed.

(** ** Validation *)

(** With a complete schema, the issues of a frame whose rows are split in two
    are the issues of the first part followed by those of the second. *)
Theorem validate_app_rows (cols : list string) (ps qs : list (nat * Row)) :
  missing_columns (mkDF cols []) = [] ->
  validate (mkDF cols (ps ++ qs)) = validate (mkDF cols ps) ++ validate (mkDF cols qs).
Proof.
  intros Hm. unfold validate, missing_columns in *. simpl in *.
  rewrite Hm. apply flat_map_app.
Qed.

Lemma validate_app_rows_witness :
  missing_columns (mkDF REQUIRED_COLUMNS []) = [] /\
  validate (mkDF REQUIRED_COLUMNS (test_rows ++ [(3%nat, undated_row)])) =
    validate (mkDF REQUIRED_COLUMNS test_rows) ++ validate (mkDF REQUIRED_COLUMNS [(3%nat, undated_row)]).
Proof.
  split; [reflexivity |].
  apply (validate_app_rows REQUIRED_COLUMNS test_rows [(3%nat, undated_row)]). reflexivity.
Defined.

(** A row yields no issue exactly when its status is empty or one of the four
    allowed values, an active or closed status comes with a job id, and an
    assignment has both a PM and an assigned date. *)
Theorem row_checks_nil_iff (idx : nat) (r : Row) :
  row_checks idx r = [] <->
  (status r = ""%string \/ In (status r) ALLOWED_STATUSES) /\
  (In (status r) ["In Progress"; "Completed"; "On Hold"]%string -> dash_job_id r <> ""%string) /\
  (is_assignment_isin (is_assignment r) = true ->
     assigned_pm r <> ""%string /\ assigned_date r <> None).
Proof.
  unfold row_checks, is_assignment_isin.
  pose proof (active_status_allowed (status r)) as HA.
  rewrite <- !mem_In.
  destruct (String.eqb_spec (status r) "") as [E1 | E1];
  destruct (mem (status r) ALLOWED_STATUSES) eqn:E2;
  destruct (mem (status r) ["In Progress"; "Completed"; "On Hold"]%string) eqn:E3;
  destruct (String.eqb_spec (dash_job_id r) "") as [E4 | E4];
  destruct (mem (str_lower (is_assignment r)) ["yes"; "y"; "true"; "1"]%string);
  destruct (String.eqb_spec (assigned_pm r) "") as [E6 | E6];
  destruct (assigned_date r);
  simpl; try (specialize (HA eq_refl); discriminate);
  intuition (try discriminate; try congruence).
Qed.

(** ** KPI counts *)


Lemma count_true_nil {A} (p : A -> bool) : count_true p [] = 0.
Proof. reflexivity. Qed.

Lemma count_true_cons {A} (p : A -> bool) (x : A) (l : list A) :
  count_true p (x :: l) = (if p x then 1 else 0) + count_true p l.
Proof. unfold count_true. simpl. destruct (p x); simpl length; lia. Qed.

Lemma count_true_bounds {A} (p : A -> bool) (l : list A) :
  0 <= count_true p l <= Z.of_nat (length l).
Proof.
  induction l as [| x l IH]; [rewrite count_true_nil; simpl; lia |].
  rewrite count_true_cons. simpl length. rewrite Nat2Z.inj_succ. destruct (p x); lia.
Qed.

Lemma status_indicator_sum (s : string) :
  (if String.eqb s "New" then 1 else 0) + (if String.eqb s "In Progress" then 1 else 0) +
  (if String.eqb s "Completed" then 1 else 0) + (if String.eqb s "On Hold" then 1 else 0) =
  (if mem s ALLOWED_STATUSES then 1 else 0).
Proof.
  unfold mem, ALLOWED_STATUSES. simpl existsb.
  destruct (String.eqb_spec s "New"); [subst; reflexivity |].
  destruct (String.eqb_spec s "In Progress"); [subst; reflexivity |].
  destruct (String.eqb_spec s "Completed"); [subst; reflexivity |].
  destruct (String.eqb_spec s "On Hold"); [subst; reflexivity |].
  reflexivity.
Qed.

Lemma count_status_sum (rs : list Row) :
  count_true (fun r => String.eqb (status r) "New") rs +
  count_true (fun r => String.eqb (status r) "In Progress") rs +
  count_true (fun r => String.eqb (status r) "Completed") rs +
  count_true (fun r => String.eqb (status r) "On Hold") rs =
  count_true (fun r => mem (status r) ALLOWED_STATUSES) rs.
Proof.
  induction rs as [| r rs IH]; [reflexivity |].
  rewrite !count_true_cons, <- IH, <- (status_indicator_sum (status r)). lia.
Qed.

Lemma breach_count_le_nonnull (f : Row -> option Z) (t : Z) (df : DataFrame) :
  0 <= spec_breach_count f t df <= Z.of_nat (length (spec_nonnull_values f df)).
Proof.
  unfold spec_breach_count, spec_nonnull_values. destruct df as [cols ps]. simpl.
  induction ps as [| p ps IH]; [unfold count_true; simpl; lia |].
  rewrite count_true_cons. simpl flat_map.
  destruct (f (snd p)) as [x |]; simpl; [destruct (t <? x) |]; lia.
Qed.


(** The count KPIs are consistent: "Total Claims" is the number of rows,
    "Assignments" is between 0 and it, "Non-Assignments" is the rest, and the
    four status counts add up to the number of rows whose status is allowed,
    hence never exceed the total. *)
Theorem compute_kpis_count_relations (sort_count_desc : Table -> Table) (round2 : Q -> Q)
    (df : DataFrame) (a c : Z) res df' :
  compute_kpis sort_count_desc round2 df a c = Some (res, df') ->
  exists m s1 s2 s3 s4,
    kpi "Total Claims" (kpis_of res) = Some (VInt (Z.of_nat (length (rows df)))) /\
    kpi "Assignments" (kpis_of res) = Some (VInt m) /\
    kpi "Non-Assignments" (kpis_of res) = Some (VInt (Z.of_nat (length (rows df)) - m)) /\
    0 <= m <= Z.of_nat (length (rows df)) /\
    kpi "Status: New" (kpis_of res) = Some (VInt s1) /\
    kpi "Status: In Progress" (kpis_of res) = Some (VInt s2) /\
    kpi "Status: Completed" (kpis_of res) = Some (VInt s3) /\
    kpi "Status: On Hold" (kpis_of res) = Some (VInt s4) /\
    s1 + s2 + s3 + s4 = count_true (fun p => mem (status (snd p)) ALLOWED_STATUSES) (rows df) /\
    s1 + s2 + s3 + s4 <= Z.of_nat (length (rows df)).
Proof.
  intros H. apply compute_kpis_some_inv in H. destruct H as [_ [Hout _]].
  rewrite Hout. rewrite length_map.
  do 5 eexists. find_kpi.
  split; [reflexivity |]. split; [reflexivity |]. split; [reflexivity |].
  split; [rewrite <- (length_map snd (rows df)); apply count_true_bounds |].
  do 4 (split; [reflexivity |]).
  rewrite count_status_sum, count_true_map. split; [reflexivity |].
  apply count_true_bounds.
Qed.

(** The KPI dictionary has eleven distinct keys, in insertion order: no entry
    overwrites another, whatever the two thresholds. *)
Theorem compute_kpis_keys (sort_count_desc : Table -> Table) (round2 : Q -> Q)
    (df : DataFrame) (a c : Z) res df' :
  compute_kpis sort_count_desc round2 df a c = Some (res, df') ->
  map fst (kpis_of res) =
    ["Total Claims"; "Assignments"; "Non-Assignments"; "Status: New";
     "Status: In Progress"; "Status: Completed"; "Status: On Hold";
     "Avg Assign Lag (days)"; "Avg Resolution (days)";
     assign_breach_key a; complete_breach_key c]%string /\
  NoDup (map fst (kpis_of res)).
Proof.
  intros H. apply compute_kpis_some_inv in H. destruct H as [_ [Hout _]].
  rewrite Hout. split; [reflexivity |]. simpl map.
  unfold assign_breach_key, complete_breach_key.
  repeat constructor; simpl; intuition discriminate.
Qed.

(** Each SLA breach count is at most the number of rows whose lag is
    non-null. *)
Theorem sla_breaches_le_nonnull (sort_count_desc : Table -> Table) (round2 : Q -> Q)
    (df : DataFrame) (a c : Z) res df' :
  compute_kpis sort_count_desc round2 df a c = Some (res, df') ->
  exists n m,
    kpi (assign_breach_key a) (kpis_of res) = Some (VInt n) /\
    kpi (complete_breach_key c) (kpis_of res) = Some (VInt m) /\
    0 <= n <= Z.of_nat (length (spec_nonnull_values assign_lag_days df)) /\
    0 <= m <= Z.of_nat (length (spec_nonnull_values resolution_days df)).
Proof.
  intros H. destruct (assign_breaches_kpi _ _ _ _ _ _ _ H) as [Ha Hc].
  do 2 eexists. split; [exact Ha |]. split; [exact Hc |].
  split; apply breach_count_le_nonnull.
Qed.

(** ** Groupings *)



Lemma string_compare_trans (a b c : string) :
  String.compare a b = Lt -> String.compare b c = Lt -> String.compare a c = Lt.
Proof.
  intros H1 H2. apply (proj2 (String_as_OT.cmp_lt a c)).
  apply String_as_OT.lt_trans with b; apply String_as_OT.cmp_lt; assumption.
Qed.

Lemma string_compare_refl (a : string) : String.compare a a = Eq.
Proof. apply (proj2 (String_as_OT.cmp_eq a a)). reflexivity. Qed.

Lemma key_before_trans : Relations_1.Transitive key_before.
Proof. intros x y z. unfold key_before. apply string_compare_trans. Qed.

Lemma insert_key_hd (a : string * nat) (k : string) (t : Table) :
  HdRel key_before a t -> String.compare (fst a) k = Lt ->
  HdRel key_before a (insert_key k t).
Proof.
  intros Hd Hk. destruct t as [| [k' n] t']; simpl.
  - constructor. exact Hk.
  - inversion Hd as [| b l Hb]; subst.
    destruct (String.compare k k'); constructor; exact Hb || exact Hk.
Qed.

Lemma insert_key_sorted (k : string) (t : Table) :
  Sorted key_before t -> Sorted key_before (insert_key k t).
Proof.
  induction t as [| [k' n] t' IH]; intros Hs; simpl.
  - repeat constructor.
  - inversion Hs as [| b l Hs' Hd]; subst.
    destruct (String.compare k k') eqn:E.
    + constructor; [exact Hs' |].
      inversion Hd as [| b l Hb]; subst; constructor. exact Hb.
    + constructor; [exact Hs | constructor; exact E].
    + constructor; [exact (IH Hs') |].
      apply insert_key_hd; [exact Hd |].
      simpl. rewrite String.compare_antisym, E. reflexivity.
Qed.

Lemma table_count_absent (k : string) (t : Table) :
  Forall (fun e => fst e <> k) t -> table_count k t = 0%nat.
Proof.
  unfold table_count. induction 1 as [| e t He _ IH]; simpl; [reflexivity |].
  destruct (String.eqb_spec (fst e) k); [contradiction | exact IH].
Qed.

Lemma table_count_cons (k k' : string) (n : nat) (t : Table) :
  table_count k ((k', n) :: t) = if String.eqb k' k then n else table_count k t.
Proof. unfold table_count. simpl. destruct (String.eqb k' k); reflexivity. Qed.

Lemma insert_key_count (k k' : string) (t : Table) :
  Sorted key_before t ->
  table_count k' (insert_key k t) = (table_count k' t + if String.eqb k k' then 1 else 0)%nat.
Proof.
  induction t as [| [k0 n] t' IH]; intros Hs.
  - simpl. unfold table_count. simpl. destruct (String.eqb k k'); reflexivity.
  - inversion Hs as [| b l Hs' Hd]; subst. simpl insert_key.
    destruct (String.compare k k0) eqn:E.
    + apply String.compare_eq_iff in E. subst k0.
      rewrite !table_count_cons. destruct (String.eqb k k'); lia.
    + rewrite (table_count_cons k' k 1). destruct (String.eqb_spec k k') as [<- | Hne].
      * rewrite (table_count_absent k ((k0, n) :: t')); [reflexivity |].
        apply Sorted_StronglySorted in Hs; [| exact key_before_trans].
        assert (Hlt : Forall (key_before (k, 1%nat)) ((k0, n) :: t')).
        { constructor; [exact E |].
          inversion Hs as [| b l _ Hf]; subst.
          eapply Forall_impl; [| exact Hf].
          intros e He. eapply key_before_trans; [| exact He]. exact E. }
        eapply Forall_impl; [| exact Hlt].
        intros e He Heq. unfold key_before in He. simpl in He.
        rewrite Heq, string_compare_refl in He. discriminate.
      * lia.
    + rewrite !table_count_cons, (IH Hs').
      destruct (String.eqb_spec k0 k') as [<- | Hne]; [| reflexivity].
      destruct (String.eqb_spec k k0) as [-> | _]; [| lia].
      rewrite string_compare_refl in E. discriminate.
Qed.

Lemma insert_key_total (k : string) (t : Table) :
  table_total (insert_key k t) = S (table_total t).
Proof.
  induction t as [| [k' n] t' IH]; simpl; [reflexivity |].
  destruct (String.compare k k'); simpl; rewrite ?IH; lia.
Qed.

Lemma insert_key_pos (k : string) (t : Table) :
  Forall (fun e => (0 < snd e)%nat) t -> Forall (fun e => (0 < snd e)%nat) (insert_key k t).
Proof.
  induction 1 as [| [k' n] t' Hn Hl IH]; simpl.
  - repeat constructor.
  - simpl in Hn. destruct (String.compare k k').
    + constructor; [simpl; lia | exact Hl].
    + constructor; [simpl; lia | constructor; assumption].
    + constructor; assumption.
Qed.

Lemma groupby_fold_invariant (keys : list string) (acc : Table) :
  Sorted key_before acc -> Forall (fun e => (0 < snd e)%nat) acc ->
  let t := fold_left (fun t k => insert_key k t) keys acc in
  Sorted key_before t /\ Forall (fun e => (0 < snd e)%nat) t /\
  table_total t = (table_total acc + length keys)%nat /\
  (forall k', table_count k' t = (table_count k' acc + count_occ string_dec keys k')%nat).
Proof.
  revert acc. induction keys as [| k keys IH]; intros acc Hs Hp; simpl.
  - repeat split; auto; lia.
  - destruct (IH (insert_key k acc) (insert_key_sorted k acc Hs) (insert_key_pos k acc Hp))
      as [H1 [H2 [H3 H4]]].
    repeat split; auto.
    + rewrite H3, insert_key_total. lia.
    + intros k'. rewrite H4, (insert_key_count _ _ _ Hs).
      destruct (String.eqb_spec k k'), (string_dec k k'); subst; try contradiction; lia.
Qed.

Lemma strongly_sorted_nodup (t : Table) :
  StronglySorted key_before t -> NoDup (map fst t).
Proof.
  induction 1 as [| e t _ IH Hf]; simpl; constructor; [| exact IH].
  intros Hin. apply in_map_iff in Hin. destruct Hin as [e' [Heq He']].
  rewrite Forall_forall in Hf. specialize (Hf e' He'). unfold key_before in Hf.
  rewrite Heq, string_compare_refl in Hf. discriminate.
Qed.

Lemma table_count_In (k : string) (t : Table) :
  Forall (fun e => (0 < snd e)%nat) t ->
  (In k (map fst t) <-> (0 < table_count k t)%nat).
Proof.
  induction 1 as [| [k' n] t Hn _ IH]; simpl.
  - unfold table_count. simpl. split; [contradiction | lia].
  - rewrite table_count_cons. simpl in Hn.
    destruct (String.eqb_spec k' k) as [<- | Hne]; [split; auto |].
    rewrite <- IH. split; [intros [H | H]; [contradiction | exact H] | auto].
Qed.

(** [groupby(key)["claim_id"].count()] before sorting: keys strictly
    ascending, hence distinct; exactly the values of the column; each count
    positive and equal to the number of rows holding the key; the counts sum
    to the number of rows. *)
Theorem groupby_count_spec (keys : list string) :
  StronglySorted key_before (groupby_count keys) /\
  NoDup (map fst (groupby_count keys)) /\
  (forall k, In k (map fst (groupby_count keys)) <-> In k keys) /\
  (forall k, table_count k (groupby_count keys) = count_occ string_dec keys k) /\
  Forall (fun e => (0 < snd e)%nat) (groupby_count keys) /\
  table_total (groupby_count keys) = length keys.
Proof.
  destruct (groupby_fold_invariant keys [] (Sorted_nil _) (Forall_nil _))
    as [Hs [Hp [Ht Hc]]].
  fold (groupby_count keys) in Hs, Hp, Ht, Hc.
  assert (Hss : StronglySorted key_before (groupby_count keys))
    by (apply Sorted_StronglySorted; [exact key_before_trans | exact Hs]).
  repeat split.
  - exact Hss.
  - apply strongly_sorted_nodup, Hss.
  - intros Hk. apply (table_count_In k _ Hp) in Hk. rewrite Hc in Hk.
    apply (count_occ_In string_dec). simpl in Hk. lia.
  - intros Hk. apply (table_count_In k _ Hp). rewrite Hc.
    apply (count_occ_In string_dec) in Hk. simpl. lia.
  - intros k. rewrite Hc. reflexivity.
  - exact Hp.
  - rewrite Ht. reflexivity.
Qed.

(** ** Running [compute_kpis] again on the frame it has modified *)

Lemma set_column_name_mem (c : string) (cols : list string) :
  mem c cols = true -> set_column_name c cols = cols.
Proof. unfold set_column_name. intros ->. reflexivity. Qed.

Lemma mem_set_column_name_same (c : string) (cols : list string) :
  mem c (set_column_name c cols) = true.
Proof.
  unfold set_column_name. destruct (mem c cols) eqn:E; [exact E |].
  apply mem_In, in_or_app. right. left. reflexivity.
Qed.

Lemma mem_set_column_name_mono (c k : string) (cols : list string) :
  mem k cols = true -> mem k (set_column_name c cols) = true.
Proof.
  unfold set_column_name. intros H. destruct (mem c cols); [exact H |].
  apply mem_In in H. apply mem_In, in_or_app. left. exact H.
Qed.

Lemma set_extra_same (c : string) (v : Cell) (e : list (string * Cell)) :
  cell_at c e = Some v -> set_extra c v e = e.
Proof.
  induction e as [| [c' v'] e IH]; simpl; [discriminate |].
  destruct (String.eqb c c').
  - intros H. injection H as ->. reflexivity.
  - intros H. rewrite (IH H). reflexivity.
Qed.

Lemma set_cell_same (c : string) (v : Cell) (r : Row) :
  cell_at c (extra r) = Some v -> set_cell c v r = r.
Proof.
  destruct r. unfold set_cell. simpl. intros H. rewrite (set_extra_same _ _ _ H). reflexivity.
Qed.


Lemma add_lag_columns_idem (df : DataFrame) :
  add_lag_columns (add_lag_columns df) = add_lag_columns df.
Proof.
  destruct df as [cols ps]. unfold add_lag_columns, add_column. simpl. f_equal.
  - set (X := set_column_name "resolution_days" (set_column_name "assign_lag_days" cols)).
    assert (Ha : mem "assign_lag_days" X = true)
      by (apply mem_set_column_name_mono, mem_set_column_name_same).
    assert (Hr : mem "resolution_days" X = true) by apply mem_set_column_name_same.
    rewrite (set_column_name_mem _ _ Ha), (set_column_name_mem _ _ Hr). reflexivity.
  - rewrite !map_map. apply map_ext. intros [i r]. simpl. f_equal.
    set (R := set_cell "resolution_days" (CInt (resolution_days r))
                (set_cell "assign_lag_days" (CInt (assign_lag_days r)) r)).
    assert (Ha : cell_at "assign_lag_days" (extra R) = Some (CInt (assign_lag_days r))).
    { unfold R, set_cell. simpl.
      rewrite cell_at_set_other by discriminate. apply cell_at_set_same. }
    assert (Hr : cell_at "resolution_days" (extra R) = Some (CInt (resolution_days r))).
    { unfold R, set_cell. simpl. apply cell_at_set_same. }
    change (set_cell "resolution_days" (CInt (resolution_days r))
              (set_cell "assign_lag_days" (CInt (assign_lag_days r)) R) = R).
    rewrite (set_cell_same _ _ R Ha), (set_cell_same _ _ R Hr). reflexivity.
Qed.

Lemma add_lag_columns_rows (df : DataFrame) :
  map snd (rows (add_lag_columns df)) =
  map (fun r => set_cell "resolution_days" (CInt (resolution_days r))
                  (set_cell "assign_lag_days" (CInt (assign_lag_days r)) r))
      (map snd (rows df)).
Proof.
  destruct df as [cols ps]. unfold add_lag_columns, add_column. simpl.
  rewrite !map_map. reflexivity.
Qed.

Lemma add_lag_columns_keeps (df : DataFrame) (k : string) :
  mem k (columns df) = true -> mem k (columns (add_lag_columns df)) = true.
Proof. intros H. simpl. apply mem_set_column_name_mono, mem_set_column_name_mono, H. Qed.

(** Running [compute_kpis] again on the frame the first call has modified
    gives the same KPIs and tables and leaves that frame as it is: the added
    lag columns do not feed back into any KPI. *)
Theorem compute_kpis_rerun (sort_count_desc : Table -> Table) (round2 : Q -> Q)
    (df : DataFrame) (a c : Z) res df' :
  compute_kpis sort_count_desc round2 df a c = Some (res, df') ->
  compute_kpis sort_count_desc round2 df' a c = Some (res, df').
Proof.
  unfold compute_kpis at 1.
  destruct (forallb (fun c => mem c (columns df)) kpi_columns) eqn:E; [| discriminate].
  intros H. injection H as <- <-.
  fold (add_lag_columns df).
  unfold compute_kpis.
  replace (forallb (fun c => mem c (columns (add_lag_columns df))) kpi_columns) with true.
  2: { symmetry. rewrite forallb_forall in E |- *. intros k Hk.
       apply add_lag_columns_keeps, E, Hk. }
  fold (add_lag_columns (add_lag_columns df)). rewrite add_lag_columns_idem.
  rewrite add_lag_columns_rows. cbn [map app].
  rewrite !count_true_map, !map_map, !length_map.
  reflexivity.
Qed.

(** ** Loading *)













(** ** [main] *)


Lemma missing_columns_kpi (df : DataFrame) :
  forallb (fun c => mem c (columns df)) kpi_columns = true ->
  missing_columns df = if mem "dash_job_id" (columns df) then [] else ["dash_job_id"%string].
Proof.
  intros H. rewrite forallb_forall in H.
  unfold missing_columns, REQUIRED_COLUMNS. cbn [filter].
  rewrite (H "claim_id"%string), (H "branch"%string), (H "line_of_service"%string),
    (H "is_assignment"%string), (H "received_date"%string), (H "assigned_pm"%string),
    (H "assigned_date"%string), (H "status"%string), (H "completed_date"%string)
    by (simpl; tauto).
  cbn [negb]. destruct (mem "dash_job_id" (columns df)); reflexivity.
Qed.


Lemma main_core_some_inv (parse_dates : list string -> list (option date))
    (strptime_date : string -> option date) (sort_count_desc : Table -> Table)
    (round2 : Q -> Q) (week_start : option string) (today : date) (raw : RawFrame)
    (a c s e : Z) (rep : Report) :
  select_week strptime_date week_start today = Some (s, e) ->
  main_core parse_dates strptime_date sort_count_desc round2 week_start today raw a c = Some rep ->
  let df_week := mkDF (raw_columns raw)
                   (filter (fun p => in_week s e (received_date (snd p)))
                           (rows (load_data parse_dates raw))) in
  mem "received_date" (raw_columns raw) = true /\
  compute_kpis sort_count_desc round2 df_week a c = Some (report_kpis rep, report_raw_data rep) /\
  report_start rep = s /\ report_end rep = e /\
  report_errors rep = validate df_week.
Proof.
  intros Hsel H. unfold main_core in H. rewrite Hsel in H.
  unfold filter_week in H. cbn [columns load_data] in H.
  destruct (mem "received_date" (raw_columns raw)) eqn:Er; [| discriminate].
  match type of H with
  | match ?m with Some _ => _ | None => _ end = _ => destruct m as [[res df'] |] eqn:Ek
  end; [| discriminate].
  injection H as <-. simpl. auto.
Qed.


(** When [main] gets to [write_excel]: the report covers the selected week,
    "Total Claims" counts the loaded rows received in it, the "Raw Data"
    sheet has the two lag columns added by [compute_kpis], and the only
    schema issue that can appear is the absence of [dash_job_id], reported
    alone. *)
Theorem main_core_report (parse_dates : list string -> list (option date))
    (strptime_date : string -> option date) (sort_count_desc : Table -> Table)
    (round2 : Q -> Q) (week_start : option string) (today : date) (raw : RawFrame)
    (a c s e : Z) (rep : Report) :
  select_week strptime_date week_start today = Some (s, e) ->
  main_core parse_dates strptime_date sort_count_desc round2 week_start today raw a c = Some rep ->
  report_start rep = s /\ report_end rep = e /\
  kpi "Total Claims" (kpis_of (report_kpis rep)) =
    Some (VInt (count_true (fun p => in_week s e (received_date (snd p)))
                           (rows (load_data parse_dates raw)))) /\
  columns (report_raw_data rep) =
    set_column_name "resolution_days" (set_column_name "assign_lag_days" (raw_columns raw)) /\
  (In "dash_job_id"%string (raw_columns raw) ->
     Forall (fun x => field x <> "schema"%string) (report_errors rep)) /\
  (~ In "dash_job_id"%string (raw_columns raw) ->
     report_errors rep =
       [mkIssue RowDash "schema" "Missing required columns: ['dash_job_id']"]).
Proof.
  intros Hsel H.
  destruct (main_core_some_inv _ _ _ _ _ _ _ _ _ _ _ _ Hsel H) as [_ [Hk [Hs [He Herr]]]].
  destruct (compute_kpis_some_inv _ _ _ _ _ _ _ Hk) as [Hcols [Hout [_ [_ [_ Hdf]]]]].
  split; [exact Hs |]. split; [exact He |]. split.
  { rewrite Hout. find_kpi. cbn [rows]. rewrite length_map. reflexivity. }
  split; [rewrite Hdf; reflexivity |].
  rewrite Herr. unfold validate. rewrite (missing_columns_kpi _ Hcols). cbn [columns].
  split.
  - intros Hd. apply mem_In in Hd. rewrite Hd. apply Forall_forall.
    intros x Hx. apply in_flat_map in Hx. destruct Hx as [p [_ Hx]].
    exact (row_checks_not_schema _ _ _ Hx).
  - intros Hd. destruct (mem "dash_job_id" (raw_columns raw)) eqn:E.
    + apply mem_In in E. contradiction.
    + reflexivity.
Qed.


(** ** Concrete instances of the further properties *)

Lemma compute_kpis_count_relations_witness :
  exists res df',
    compute_kpis small_sort_count_desc round2_exact test_df 1 7 = Some (res, df') /\
    exists m s1 s2 s3 s4,
      kpi "Total Claims" (kpis_of res) = Some (VInt (Z.of_nat (length (rows test_df)))) /\
      kpi "Assignments" (kpis_of res) = Some (VInt m) /\
      kpi "Non-Assignments" (kpis_of res) = Some (VInt (Z.of_nat (length (rows test_df)) - m)) /\
      0 <= m <= Z.of_nat (length (rows test_df)) /\
      kpi "Status: New" (kpis_of res) = Some (VInt s1) /\
      kpi "Status: In Progress" (kpis_of res) = Some (VInt s2) /\
      kpi "Status: Completed" (kpis_of res) = Some (VInt s3) /\
      kpi "Status: On Hold" (kpis_of res) = Some (VInt s4) /\
      s1 + s2 + s3 + s4 = count_true (fun p => mem (status (snd p)) ALLOWED_STATUSES) (rows test_df) /\
      s1 + s2 + s3 + s4 <= Z.of_nat (length (rows test_df)).
Proof.
  do 2 eexists. split; [reflexivity |].
  eapply (compute_kpis_count_relations small_sort_count_desc round2_exact test_df 1 7).
  reflexivity.
Defined.

Lemma compute_kpis_keys_witness :
  exists res df',
    compute_kpis small_sort_count_desc round2_exact test_df 1 1 = Some (res, df') /\
    map fst (kpis_of res) =
      ["Total Claims"; "Assignments"; "Non-Assignments"; "Status: New";
       "Status: In Progress"; "Status: Completed"; "Status: On Hold";
       "Avg Assign Lag (days)"; "Avg Resolution (days)";
       assign_breach_key 1; complete_breach_key 1]%string /\
    NoDup (map fst (kpis_of res)).
Proof.
  do 2 eexists. split; [reflexivity |].
  eapply (compute_kpis_keys small_sort_count_desc round2_exact test_df 1 1).
  reflexivity.
Defined.

Lemma sla_breaches_le_nonnull_witness :
  exists res df',
    compute_kpis small_sort_count_desc round2_exact test_df 0 0 = Some (res, df') /\
    exists n m,
      kpi (assign_breach_key 0) (kpis_of res) = Some (VInt n) /\
      kpi (complete_breach_key 0) (kpis_of res) = Some (VInt m) /\
      0 <= n <= Z.of_nat (length (spec_nonnull_values assign_lag_days test_df)) /\
      0 <= m <= Z.of_nat (length (spec_nonnull_values resolution_days test_df)).
Proof.
  do 2 eexists. split; [reflexivity |].
  eapply (sla_breaches_le_nonnull small_sort_count_desc round2_exact test_df 0 0).
  reflexivity.
Defined.

Lemma compute_kpis_rerun_witness :
  exists res df',
    compute_kpis small_sort_count_desc round2_exact test_df 1 7 = Some (res, df') /\
    compute_kpis small_sort_count_desc round2_exact df' 1 7 = Some (res, df').
Proof.
  do 2 eexists. split; [reflexivity |].
  eapply (compute_kpis_rerun small_sort_count_desc round2_exact test_df 1 7).
  reflexivity.
Defined.




Lemma main_core_report_witness :
  select_week iso_date None 739523 = Some (739516, 739522) /\
  exists rep,
    main_core test_parse_dates iso_date small_sort_count_desc round2_exact
      None 739523 test_raw_no_dash 1 7 = Some rep /\
    report_start rep = 739516 /\ report_end rep = 739522 /\
    kpi "Total Claims" (kpis_of (report_kpis rep)) =
      Some (VInt (count_true (fun p => in_week 739516 739522 (received_date (snd p)))
                             (rows (load_data test_parse_dates test_raw_no_dash)))) /\
    columns (report_raw_data rep) =
      set_column_name "resolution_days"
        (set_column_name "assign_lag_days" (raw_columns test_raw_no_dash)) /\
    (In "dash_job_id"%string (raw_columns test_raw_no_dash) ->
       Forall (fun x => field x <> "schema"%string) (report_errors rep)) /\
    (~ In "dash_job_id"%string (raw_columns test_raw_no_dash) ->
       report_errors rep =
         [mkIssue RowDash "schema" "Missing required columns: ['dash_job_id']"]).
Proof.
  split; [reflexivity |].
  eexists. split; [vm_compute; reflexivity |].
  eapply (main_core_report test_parse_dates iso_date small_sort_count_desc round2_exact
            None 739523 test_raw_no_dash 1 7 739516 739522); [reflexivity |].
  vm_compute. reflexivity.
Defined.

